(** * The seed script of the admin API (apps/api/seed_db.py)

    A shallow embedding of [seed]: the script that fills an empty
    database with three users and three projects and does nothing when
    a user already exists.

    The script talks to two collaborators that live in other modules of
    the application (the SQLAlchemy session over [app.core.database.engine]
    and [app.core.security.get_password_hash]).  The session is modelled
    as an in-memory store with a unit of work, a table of rows per entity
    and a sequence per table; the hasher is a parameter.  Every operation
    that does I/O can raise: which one does is decided by a fault plan,
    so that the failing runs are runs of the model too. *)

From stdpp Require Import base list strings pretty.
From Stdlib Require Import ZArith Lia Ascii.

Local Open Scope Z_scope.

(** ** Entities (app.models.user, app.models.project) *)

(** Modelled from the spec: the enum [UserRole] of app.models.user is not
    part of the script; the three roles are the closed enum
    administrator | manager | viewer of the data model. *)
Module UserRole.
Inductive t := admin | manager | viewer.
End UserRole.

(** Modelled from the spec: the enum [ProjectStatus] of app.models.project,
    the closed enum draft | active | completed | archived. *)
Module ProjectStatus.
Inductive t := draft | active | completed | archived.
End ProjectStatus.

(** Modelled from the spec: the enum [ProjectPriority] of
    app.models.project, the closed enum low | medium | high | critical. *)
Module ProjectPriority.
Inductive t := low | medium | high | critical.
End ProjectPriority.

(** A [User] row or object.  [id] is [None] until the row is inserted:
    the script never passes an id to the constructor. *)
Module User.
Record t := mk {
  id : option Z;
  email : string;
  full_name : string;
  hashed_password : string;
  role : UserRole.t;
  is_active : bool
}.

Definition with_id (i : Z) (u : t) : t :=
  mk (Some i) (email u) (full_name u) (hashed_password u) (role u)
     (is_active u).
End User.

(** A [Project] row or object.  [budget] is a Python int (an amount in
    cents), [owner_id] the value read from [User.id] of the owner. *)
Module Project.
Record t := mk {
  id : option Z;
  name : string;
  description : string;
  status : ProjectStatus.t;
  priority : ProjectPriority.t;
  budget : Z;
  owner_id : option Z
}.

Definition with_id (i : Z) (p : t) : t :=
  mk (Some i) (name p) (description p) (status p) (priority p)
     (budget p) (owner_id p).
End Project.

(** A mapped object of either class, as [session.add_all] takes them. *)
Inductive Entity :=
| EUser (u : User.t)
| EProject (p : Project.t).

(** ** The store *)

(** The committed content of the database: the two tables in insertion
    order and the next value of each primary-key sequence. *)
Record Database := mkDatabase {
  users : list User.t;
  projects : list Project.t;
  user_seq : Z;
  project_seq : Z
}.

(** Python exceptions, as far as the script can meet them. *)
Inductive exn :=
| DBAPIError (msg : string)          (* raised by the engine *)
| InvalidRequestError (msg : string) (* raised by the session *)
| HashError (msg : string).          (* raised by the hasher *)

(** The operations of the script that can raise. *)
Inductive Op := OpExecute | OpCommit | OpRefresh | OpHash.

(** References to Python objects: positions in the heap of the run. *)
Definition ref := nat.

(** What a run does, in order.  [EvRaise] is the last event of a run
    that ends in an exception. *)
Inductive Event :=
| EvExecuteCount (n : Z)
| EvHash (plain : string)
| EvNewUser (r : ref)
| EvNewProject (r : ref)
| EvAddAll (rs : list ref)
| EvCommit (rs : list ref)
| EvRefresh (r : ref)
| EvGetId (r : ref) (v : option Z)
| EvRaise (op : Op) (e : exn).

(** What the surroundings decide during one run: whether the n-th I/O
    operation raises, and the salt the hasher draws at its n-th call. *)
Record Env := mkEnv {
  fault : nat -> option exn;
  salt : nat -> string
}.

(** The state of one run of the script: the database, the Python
    objects the run has built, the new objects of the open session,
    what was printed, the events so far and the two counters that
    index [Env]. *)
Record World := mkWorld {
  db : Database;
  heap : list Entity;
  pending : list ref;
  stdout : list string;
  trace : list Event;
  io_steps : nat;
  hash_calls : nat
}.

(** The result type named by the contract of the procedure.  The script
    itself never builds one: see [seed]. *)
Inductive Outcome :=
| Skipped (existingCount : Z)
| Seeded (accountsCreated recordsCreated : Z).

(** ** The monad of the script: state and exceptions *)

Definition M (A : Type) : Type := World -> (exn + A) * World.

Global Instance M_ret : MRet M := fun A (a : A) w => (inr a, w).

Global Instance M_bind : MBind M := fun A B (f : A -> M B) (m : M A) w =>
  match m w with
  | (inl e, w') => (inl e, w')
  | (inr a, w') => f a w'
  end.

Definition emit (ev : Event) : M unit := fun w =>
  (inr tt,
   mkWorld (db w) (heap w) (pending w) (stdout w) (trace w ++ [ev])
           (io_steps w) (hash_calls w)).

Definition raise {A} (op : Op) (e : exn) : M A := fun w =>
  (inl e,
   mkWorld (db w) (heap w) (pending w) (stdout w)
           (trace w ++ [EvRaise op e]) (io_steps w) (hash_calls w)).

(** [print(line)].  The line is taken to reach the output: a [print]
    that raises (a stdout that cannot encode the line, a closed pipe) is
    no run of this model, and "nothing raises" below includes the
    prints. *)
Definition print (line : string) : M unit := fun w =>
  (inr tt,
   mkWorld (db w) (heap w) (pending w) (stdout w ++ [line]) (trace w)
           (io_steps w) (hash_calls w)).

(** Building a Python object: a new cell of the heap. *)
Definition new (ev : ref -> Event) (o : Entity) : M ref := fun w =>
  let r := length (heap w) in
  (inr r,
   mkWorld (db w) (heap w ++ [o]) (pending w) (stdout w)
           (trace w ++ [ev r]) (io_steps w) (hash_calls w)).

(** Reading the attribute [id] of the object behind a reference. *)
Definition entity_id (o : Entity) : option Z :=
  match o with
  | EUser u => User.id u
  | EProject p => Project.id p
  end.

Definition get_id (r : ref) : M (option Z) := fun w =>
  let v := match heap w !! r with
           | Some o => entity_id o
           | None => None
           end in
  (inr v,
   mkWorld (db w) (heap w) (pending w) (stdout w)
           (trace w ++ [EvGetId r v]) (io_steps w) (hash_calls w)).

(** The flush of one new object: the row gets the next value of its
    table's sequence, and the Python object is given the same id. *)
Definition flush_one (st : Database * list Entity) (r : ref)
  : Database * list Entity :=
  let (d, h) := st in
  match h !! r with
  | Some (EUser u) =>
      let u' := User.with_id (user_seq d) u in
      (mkDatabase (users d ++ [u']) (projects d) (user_seq d + 1)
                  (project_seq d),
       <[r := EUser u']> h)
  | Some (EProject p) =>
      let p' := Project.with_id (project_seq d) p in
      (mkDatabase (users d) (projects d ++ [p']) (user_seq d)
                  (project_seq d + 1),
       <[r := EProject p']> h)
  | None => (d, h)
  end.

Definition flush (d : Database) (h : list Entity) (rs : list ref)
  : Database * list Entity :=
  foldl flush_one (d, h) rs.

Definition has_id (i : Z) (u : User.t) : bool :=
  match User.id u with
  | Some j => j =? i
  | None => false
  end.

Section Script.

(** Modelled from the spec: [get_password_hash] of app.core.security is
    not part of the script.  It is the one-way, salted hashing function
    of the CredentialHasher, from a salt and a plaintext secret to the
    stored hash; it can reject its input. *)
Variable get_password_hash : string -> string -> exn + string.

Variable env : Env.

(** Every I/O operation passes here first: the fault plan decides
    whether it raises. *)
Definition io (op : Op) : M unit := fun w =>
  let w' := mkWorld (db w) (heap w) (pending w) (stdout w) (trace w)
                    (S (io_steps w)) (hash_calls w) in
  match fault env (io_steps w) with
  | Some e => raise op e w'
  | None => (inr tt, w')
  end.

(** [get_password_hash(plain)], with the salt of this call. *)
Definition hash_password (plain : string) : M string := fun w =>
  let w' := mkWorld (db w) (heap w) (pending w) (stdout w) (trace w)
                    (io_steps w) (S (hash_calls w)) in
  match get_password_hash (salt env (hash_calls w)) plain with
  | inl e => raise OpHash e w'
  | inr h => ((emit (EvHash plain);; mret h) : M string) w'
  end.

(** The number of rows of the users table. *)
Definition count_users : M Z := fun w =>
  (inr (Z.of_nat (length (users (db w)))), w).

(** [session.execute(select(func.count(User.id)))] and [scalar_one()] *)
Definition session_execute_count : M Z :=
  io OpExecute;;
  n ← count_users;
  emit (EvExecuteCount n);;
  mret n.

(** [session.add_all(objects)]: the objects are new in the session,
    nothing reaches the database. *)
Definition session_add_all (rs : list ref) : M unit := fun w =>
  (inr tt,
   mkWorld (db w) (heap w) (pending w ++ rs) (stdout w)
           (trace w ++ [EvAddAll rs]) (io_steps w) (hash_calls w)).

(** The flush of the session's new objects, in the order they were
    added. *)
Definition flush_pending : M unit := fun w =>
  let (d, h) := flush (db w) (heap w) (pending w) in
  (inr tt,
   mkWorld d h [] (stdout w) (trace w ++ [EvCommit (pending w)])
           (io_steps w) (hash_calls w)).

(** [session.commit()]: the new objects are flushed and the transaction
    is committed.  When the commit raises, the database keeps its rows.
    The commit is taken to raise before its flush: that a commit failing
    after its INSERTs also uses up values of the sequences, and leaves
    their ids on the Python objects, is left out, so of the database
    after a failed commit only the rows are meant. *)
Definition session_commit : M unit :=
  io OpCommit;;
  flush_pending.

(** The object behind [r] takes the attributes of the user row with
    primary key [i]. *)
Definition reload_user (r : ref) (i : Z) : M unit := fun w =>
  match find (has_id i) (users (db w)) with
  | Some row =>
      (inr tt,
       mkWorld (db w) (<[r := EUser row]> (heap w)) (pending w) (stdout w)
               (trace w ++ [EvRefresh r]) (io_steps w) (hash_calls w))
  | None =>
      raise OpRefresh (InvalidRequestError "Could not refresh instance") w
  end.

Definition not_persistent : exn :=
  InvalidRequestError "Instance is not persistent within this Session".

(** [session.refresh(obj)]: the attributes of a persistent user are read
    again from its row.  An object without a row is refused before any
    I/O. *)
Definition session_refresh (r : ref) : M unit := fun w =>
  match heap w !! r with
  | Some (EUser u) =>
      match User.id u with
      | Some i => (io OpRefresh;; reload_user r i) w
      | None => raise OpRefresh not_persistent w
      end
  | _ => raise OpRefresh not_persistent w
  end.

(** A session without new objects: a session just opened, or closed. *)
Definition no_pending (w : World) : World :=
  mkWorld (db w) (heap w) [] (stdout w) (trace w) (io_steps w)
          (hash_calls w).

(** [async with async_session() as session]: the session starts with no
    object, and it is closed on the way out, whether the body returned
    or raised; what the body raised is raised again. *)
Definition async_with_session {A} (body : M A) : M A := fun w =>
  let (r, w1) := body (no_pending w) in
  (r, no_pending w1).

Definition nl : string := String "010"%char "".

(** ** The script *)

(** [seed()].  Neither exit of the function returns a value: the early
    [return] and the end of the body both give Python's [None], which
    is [None] here. *)
Definition seed : M (option Outcome) :=
  async_with_session (
    user_count ← session_execute_count;
    if 0 <? user_count then
      print ("Database already has " +:+ pretty user_count
             +:+ " users. Skipping seed.");;
      mret None
    else
      print "Database is empty. Seeding...";;
      h_admin ← hash_password "admin123";
      admin ← new EvNewUser (EUser
        (User.mk None "admin@example.com" "Admin User" h_admin
                 UserRole.admin true));
      h_manager ← hash_password "manager123";
      manager ← new EvNewUser (EUser
        (User.mk None "manager@example.com" "Manager User" h_manager
                 UserRole.manager true));
      h_viewer ← hash_password "viewer123";
      viewer ← new EvNewUser (EUser
        (User.mk None "viewer@example.com" "Viewer User" h_viewer
                 UserRole.viewer true));
      session_add_all [admin; manager; viewer];;
      session_commit;;
      print "Created 3 users";;
      session_refresh admin;;
      session_refresh manager;;
      admin_id ← get_id admin;
      p1 ← new EvNewProject (EProject
        (Project.mk None "Website Redesign"
           "Complete website overhaul with modern design"
           ProjectStatus.active ProjectPriority.high 5000000 admin_id));
      manager_id ← get_id manager;
      p2 ← new EvNewProject (EProject
        (Project.mk None "Mobile App" "iOS and Android app development"
           ProjectStatus.draft ProjectPriority.medium 10000000 manager_id));
      admin_id' ← get_id admin;
      p3 ← new EvNewProject (EProject
        (Project.mk None "API Integration"
           "Third-party payment and shipping integrations"
           ProjectStatus.active ProjectPriority.critical 2500000 admin_id'));
      session_add_all [p1; p2; p3];;
      session_commit;;
      print "Created 3 projects";;
      print (nl +:+ "✅ Database seeded successfully!");;
      print (nl +:+ "Login credentials:");;
      print "  admin@example.com / admin123";;
      print "  manager@example.com / manager123";;
      print "  viewer@example.com / viewer123";;
      mret None).

(** The world a run of the script starts in: the database as it is,
    and nothing else yet. *)
Definition boot (d : Database) : World := mkWorld d [] [] [] [] 0%nat 0%nat.

(** [asyncio.run(seed())] over the database [d]. *)
Definition run (d : Database) : (exn + option Outcome) * World :=
  seed (boot d).

End Script.

(** ** What the properties speak of *)

(** The rows a run has added to each table. *)
Definition created_users (d : Database) (w : World) : list User.t :=
  drop (length (users d)) (users (db w)).

Definition created_projects (d : Database) (w : World) : list Project.t :=
  drop (length (projects d)) (projects (db w)).

(** The accounts with a given email, and the projects of an owner. *)
Definition accounts_with_email (e : string) (d : Database) : list User.t :=
  filter (fun u => User.email u = e) (users d).

Definition owned_by (u : User.t) (d : Database) : list Project.t :=
  filter (fun p => Project.owner_id p = User.id u) (projects d).

(** The login pairs of email and plaintext secret that the script
    prints at its end. *)
Definition credentials : list (string * string) :=
  [("admin@example.com", "admin123");
   ("manager@example.com", "manager123");
   ("viewer@example.com", "viewer123")].

(** No I/O operation raises. *)
Definition no_faults (env : Env) : Prop := forall n, fault env n = None.

(** The hasher accepts the three secrets, with the salts of the run. *)
Definition hashes (hash : string -> string -> exn + string) (env : Env)
  (h1 h2 h3 : string) : Prop :=
  hash (salt env 0) "admin123" = inr h1 /\
  hash (salt env 1) "manager123" = inr h2 /\
  hash (salt env 2) "viewer123" = inr h3.

(** The three user rows, from the first id the sequence gives. *)
Definition seeded_users (i : Z) (h1 h2 h3 : string) : list User.t :=
  [User.mk (Some i) "admin@example.com" "Admin User" h1 UserRole.admin true;
   User.mk (Some (i + 1)) "manager@example.com" "Manager User" h2
           UserRole.manager true;
   User.mk (Some (i + 1 + 1)) "viewer@example.com" "Viewer User" h3
           UserRole.viewer true].

(** The three project rows, from the first id [j] of the projects and
    the id [i] of the first user. *)
Definition seeded_projects (j i : Z) : list Project.t :=
  [Project.mk (Some j) "Website Redesign"
     "Complete website overhaul with modern design"
     ProjectStatus.active ProjectPriority.high 5000000 (Some i);
   Project.mk (Some (j + 1)) "Mobile App" "iOS and Android app development"
     ProjectStatus.draft ProjectPriority.medium 10000000 (Some (i + 1));
   Project.mk (Some (j + 1 + 1)) "API Integration"
     "Third-party payment and shipping integrations"
     ProjectStatus.active ProjectPriority.critical 2500000 (Some i)].

(** The database once the users are committed, and once the projects
    are committed too. *)
Definition with_users (d : Database) (h1 h2 h3 : string) : Database :=
  mkDatabase (users d ++ seeded_users (user_seq d) h1 h2 h3) (projects d)
             (user_seq d + 1 + 1 + 1) (project_seq d).

Definition with_projects (d : Database) (h1 h2 h3 : string) : Database :=
  mkDatabase (users d ++ seeded_users (user_seq d) h1 h2 h3)
             (projects d ++ seeded_projects (project_seq d) (user_seq d))
             (user_seq d + 1 + 1 + 1) (project_seq d + 1 + 1 + 1).

(** What a complete run prints. *)
Definition report : list string :=
  ["Database is empty. Seeding..."; "Created 3 users"; "Created 3 projects";
   nl +:+ "✅ Database seeded successfully!"; nl +:+ "Login credentials:";
   "  admin@example.com / admin123"; "  manager@example.com / manager123";
   "  viewer@example.com / viewer123"].

(** The events of a complete run over [d], in order.  Every run does a
    first part of them, and a run that raises ends with [EvRaise]. *)
Definition script_trace (d : Database) : list Event :=
  [EvExecuteCount (Z.of_nat (length (users d)));
   EvHash "admin123"; EvNewUser 0%nat;
   EvHash "manager123"; EvNewUser 1%nat;
   EvHash "viewer123"; EvNewUser 2%nat;
   EvAddAll [0; 1; 2]%nat; EvCommit [0; 1; 2]%nat;
   EvRefresh 0%nat; EvRefresh 1%nat;
   EvGetId 0%nat (Some (user_seq d)); EvNewProject 3%nat;
   EvGetId 1%nat (Some (user_seq d + 1)); EvNewProject 4%nat;
   EvGetId 0%nat (Some (user_seq d)); EvNewProject 5%nat;
   EvAddAll [3; 4; 5]%nat; EvCommit [3; 4; 5]%nat].

(** The events that build or insert a project, or fetch the id of an
    owner: the refresh of a user, the reading of its id, the construction
    of a project, and an [add_all] or a commit over a project. *)
Definition needs_accounts (tr : list Event) (ev : Event) : Prop :=
  match ev with
  | EvRefresh _ | EvGetId _ _ | EvNewProject _ => True
  | EvAddAll rs | EvCommit rs => exists r, r ∈ rs /\ EvNewProject r ∈ tr
  | _ => False
  end.

(** At position [c] of the events, a commit went through that persists
    three user objects, added together before it. *)
Definition accounts_committed (tr : list Event) (c : nat) : Prop :=
  exists a rs,
    (a < c)%nat /\
    tr !! a = Some (EvAddAll rs) /\
    tr !! c = Some (EvCommit rs) /\
    length rs = 3%nat /\
    forall r, r ∈ rs -> EvNewUser r ∈ take a tr.

(** The line the script prints for a login pair. *)
Definition login_line (email secret : string) : string :=
  "  " +:+ email +:+ " / " +:+ secret.

(** A hasher and surroundings to run the script with.  [toy_hash] is no
    safe hasher: it only has the shape of one. *)
Definition toy_hash (s p : string) : exn + string :=
  inr (p +:+ "$" +:+ s).

Definition toy_verify (p h : string) : bool :=
  String.prefix (p +:+ "$") h.

(** A hasher that rejects the third secret of the script. *)
Definition strict_hash (s p : string) : exn + string :=
  if String.eqb p "viewer123" then inl (HashError "password rejected")
  else toy_hash s p.

Definition calm : Env := mkEnv (fun _ => None) (fun n => pretty (Z.of_nat n)).

Definition connection_lost : exn := DBAPIError "connection lost".

(** The surroundings in which the I/O operation number [n] raises. *)
Definition failing_at (n : nat) : Env :=
  mkEnv (fun m => if Nat.eqb m n then Some connection_lost else None)
        (fun n => pretty (Z.of_nat n)).

Definition empty_db : Database := mkDatabase [] [] 1 1.

Definition one_user_db : Database :=
  mkDatabase
    [User.mk (Some 1) "root@example.com" "Root" "x$0" UserRole.admin true]
    [] 2 1.

(** Rows to name in examples: the first project and the first user of
    a run over [empty_db] with [toy_hash] and [calm]. *)
Definition website_redesign : Project.t :=
  Project.mk (Some 1) "Website Redesign"
    "Complete website overhaul with modern design"
    ProjectStatus.active ProjectPriority.high 5000000 (Some 1).

Definition admin_user : User.t :=
  User.mk (Some 1) "admin@example.com" "Admin User" "admin123$0"
          UserRole.admin true.

(** ** Running the script one operation at a time *)

Ltac tidy :=
  unfold User.with_id, Project.with_id;
  cbn [flush flush_one foldl entity_id no_pending
       User.email User.full_name User.hashed_password User.role
       User.is_active Project.id Project.name Project.description
       Project.status Project.priority Project.budget Project.owner_id
       db heap pending stdout trace io_steps hash_calls
       users projects user_seq project_seq fault salt
       User.id has_id find
       lookup list_lookup insert list_insert app length fst snd].

Section Steps.

Variable hash : string -> string -> exn + string.
Variable env : Env.

Lemma bind_io {B} op (f : unit -> M B) d h p o t n k :
  (io env op ≫= f) (mkWorld d h p o t n k) =
  match fault env n with
  | Some e => (inl e, mkWorld d h p o (t ++ [EvRaise op e]) (S n) k)
  | None => f tt (mkWorld d h p o t (S n) k)
  end.
Proof.
  unfold mbind, M_bind, io, raise. tidy. now destruct (fault env n).
Qed.

Lemma bind_hash {B} plain (f : string -> M B) d h p o t n k :
  (hash_password hash env plain ≫= f) (mkWorld d h p o t n k) =
  match hash (salt env k) plain with
  | inl e => (inl e, mkWorld d h p o (t ++ [EvRaise OpHash e]) n (S k))
  | inr x => f x (mkWorld d h p o (t ++ [EvHash plain]) n (S k))
  end.
Proof.
  unfold mbind, M_bind, hash_password, raise, emit, mret, M_ret. tidy.
  now destruct (hash (salt env k) plain).
Qed.

Lemma bind_count {B} (f : Z -> M B) d h p o t n k :
  (session_execute_count env ≫= f) (mkWorld d h p o t n k) =
  match fault env n with
  | Some e => (inl e, mkWorld d h p o (t ++ [EvRaise OpExecute e]) (S n) k)
  | None =>
      f (Z.of_nat (length (users d)))
        (mkWorld d h p o (t ++ [EvExecuteCount (Z.of_nat (length (users d)))])
                 (S n) k)
  end.
Proof.
  unfold session_execute_count, count_users, io, raise, emit, mbind, M_bind,
    mret, M_ret.
  tidy. now destruct (fault env n).
Qed.

Lemma bind_commit {B} (f : unit -> M B) d h p o t n k :
  (session_commit env ≫= f) (mkWorld d h p o t n k) =
  match fault env n with
  | Some e => (inl e, mkWorld d h p o (t ++ [EvRaise OpCommit e]) (S n) k)
  | None =>
      f tt (mkWorld (flush d h p).1 (flush d h p).2 [] o
                    (t ++ [EvCommit p]) (S n) k)
  end.
Proof.
  unfold session_commit, flush_pending, io, raise, mbind, M_bind. tidy.
  destruct (fault env n); [easy|]. unfold flush. tidy.
  now destruct (foldl flush_one (d, h) p).
Qed.

Lemma bind_print {B} line (f : unit -> M B) d h p o t n k :
  (print line ≫= f) (mkWorld d h p o t n k) =
  f tt (mkWorld d h p (o ++ [line]) t n k).
Proof. reflexivity. Qed.

Lemma bind_new {B} ev x (f : ref -> M B) d h p o t n k :
  (new ev x ≫= f) (mkWorld d h p o t n k) =
  f (length h) (mkWorld d (h ++ [x]) p o (t ++ [ev (length h)]) n k).
Proof. reflexivity. Qed.

Lemma bind_get_id {B} r (f : option Z -> M B) d h p o t n k :
  (get_id r ≫= f) (mkWorld d h p o t n k) =
  let v := match h !! r with Some x => entity_id x | None => None end in
  f v (mkWorld d h p o (t ++ [EvGetId r v]) n k).
Proof. reflexivity. Qed.

Lemma bind_add_all {B} rs (f : unit -> M B) d h p o t n k :
  (session_add_all rs ≫= f) (mkWorld d h p o t n k) =
  f tt (mkWorld d h (p ++ rs) o (t ++ [EvAddAll rs]) n k).
Proof. reflexivity. Qed.

Lemma bind_refresh {B} r u i (f : unit -> M B) d h p o t n k :
  h !! r = Some (EUser u) -> User.id u = Some i ->
  (session_refresh env r ≫= f) (mkWorld d h p o t n k) =
  match fault env n with
  | Some e => (inl e, mkWorld d h p o (t ++ [EvRaise OpRefresh e]) (S n) k)
  | None =>
      match find (has_id i) (users d) with
      | Some row =>
          f tt (mkWorld d (<[r := EUser row]> h) p o (t ++ [EvRefresh r])
                        (S n) k)
      | None =>
          (inl (InvalidRequestError "Could not refresh instance"),
           mkWorld d h p o
             (t ++ [EvRaise OpRefresh
                      (InvalidRequestError "Could not refresh instance")])
             (S n) k)
      end
  end.
Proof.
  intros Hr Hi.
  unfold session_refresh, reload_user, io, raise, mbind, M_bind. tidy.
  rewrite Hr, Hi. tidy. destruct (fault env n); [easy|]. tidy.
  now destruct (find (has_id i) (users d)).
Qed.

Lemma with_session_unfold {A} (body : M A) d h p o t n k :
  async_with_session body (mkWorld d h p o t n k) =
  (let (r, w) := body (mkWorld d h [] o t n k) in (r, no_pending w)).
Proof. reflexivity. Qed.

End Steps.

Lemma count_pos (n : nat) : (0 <? Z.of_nat (S n)) = true.
Proof. apply Z.ltb_lt. lia. Qed.

Lemma succ_id_ne (i : Z) : (i =? i + 1) = false.
Proof. apply Z.eqb_neq. lia. Qed.

Ltac tidy_in E :=
  unfold User.with_id, Project.with_id in E;
  cbn [flush flush_one foldl entity_id no_pending
       User.email User.full_name User.hashed_password User.role
       User.is_active Project.id Project.name Project.description
       Project.status Project.priority Project.budget Project.owner_id
       db heap pending stdout trace io_steps hash_calls
       users projects user_seq project_seq fault salt
       User.id has_id find
       lookup list_lookup insert list_insert app length fst snd] in E.

Ltac step E :=
  first [ rewrite bind_count in E | rewrite bind_io in E
        | rewrite bind_hash in E | rewrite bind_commit in E
        | rewrite bind_print in E | rewrite bind_new in E
        | rewrite bind_get_id in E | rewrite bind_add_all in E
        | erewrite bind_refresh in E by reflexivity ];
  tidy_in E.

Ltac settle E :=
  progress (change (Z.of_nat 0) with 0 in E;
            rewrite ?Z.ltb_irrefl, ?count_pos, ?Z.eqb_refl, ?succ_id_ne in E;
            unfold mret, M_ret in E; tidy_in E).

Ltac branch E :=
  match type of E with
  | context [match fault ?e ?n with _ => _ end] =>
      let F := fresh "Ef" in destruct (fault e n) eqn:F
  | context [match ?h (salt ?e ?k) ?p with _ => _ end] =>
      let F := fresh "Eh" in destruct (h (salt e k) p) eqn:F
  end; tidy_in E.

(** Every run of the script from [boot d], one goal per run.  [known]
    rewrites with what the hypotheses say of the surroundings. *)
Ltac explore_with known :=
  match goal with
  | |- context [run ?h ?e ?d] =>
      let r := fresh "r" in
      let E := fresh "E" in
      remember (run h e d) as r eqn:E;
      unfold run, seed, boot in E; rewrite with_session_unfold in E;
      repeat first [ step E | known E; tidy_in E | branch E | settle E ];
      subst r; tidy
  end.

Ltac explore := explore_with ltac:(fun E => fail).

(** ** The runs of the script *)

(** A run without fault over a database without users: what it returns,
    what it leaves in the database, what it prints and what it does. *)
Lemma run_complete hash env d h1 h2 h3 :
  users d = [] -> no_faults env -> hashes hash env h1 h2 h3 ->
  (run hash env d).1 = inr None /\
  db (run hash env d).2 = with_projects d h1 h2 h3 /\
  stdout (run hash env d).2 = report /\
  trace (run hash env d).2 = script_trace d.
Proof.
  intros Hu Hf (H1 & H2 & H3). destruct d as [us ps i j]. simpl in Hu.
  subst us.
  explore_with ltac:(fun E => first [ rewrite Hf in E | rewrite H1 in E
                                    | rewrite H2 in E | rewrite H3 in E ]).
  unfold with_projects, seeded_users, seeded_projects. tidy.
  now rewrite <- !app_assoc.
Qed.

(** A run over a database with users: nothing is written, whatever the
    surroundings do. *)
Lemma run_skip hash env d :
  users d <> [] ->
  db (run hash env d).2 = d /\
  (fault env 0 = None ->
   (run hash env d).1 = inr None /\
   stdout (run hash env d).2 =
     ["Database already has " +:+ pretty (Z.of_nat (length (users d)))
      +:+ " users. Skipping seed."] /\
   trace (run hash env d).2 =
     [EvExecuteCount (Z.of_nat (length (users d)))]).
Proof.
  intros Hu. destruct d as [[|u us] ps i j]; [easy|]. clear Hu.
  explore; (split; [reflexivity|]); intros Hf; [discriminate|easy].
Qed.

(** How far a run over a database without users gets: it leaves the
    database as it was, or with the three users, or with the three users
    and the three projects; only the last one returns. *)
Lemma run_stages hash env d :
  users d = [] ->
  (exists e, (run hash env d).1 = inl e /\ db (run hash env d).2 = d) \/
  (exists h1 h2 h3,
     hashes hash env h1 h2 h3 /\
     ((exists e, (run hash env d).1 = inl e /\
                 db (run hash env d).2 = with_users d h1 h2 h3) \/
      ((run hash env d).1 = inr None /\
       db (run hash env d).2 = with_projects d h1 h2 h3))).
Proof.
  intros Hu. destruct d as [us ps i j]. simpl in Hu. subst us.
  explore;
    try (left; eexists; split; reflexivity);
    right; do 3 eexists; (split; [repeat split; eassumption|]);
    unfold with_users, with_projects, seeded_users, seeded_projects; tidy;
    rewrite <- ?app_assoc;
    first [ left; eexists; split; reflexivity | right; split; reflexivity ].
Qed.

(** The events of any run: the first events of the script, then the
    exception if the run raised. *)
Lemma run_trace hash env d :
  let r := run hash env d in
  (r.1 = inr None /\
   trace r.2 = take (length (trace r.2)) (script_trace d)) \/
  (exists op e,
     r.1 = inl e /\
     trace r.2 =
       take (length (trace r.2) - 1) (script_trace d) ++ [EvRaise op e]).
Proof.
  destruct d as [[|u us] ps i j]; cbv zeta; explore;
    first [ left; split; reflexivity
          | right; do 2 eexists; split; reflexivity ].
Qed.

(** ** The properties of the script *)

Lemma calm_no_faults : no_faults calm.
Proof. intros n. reflexivity. Qed.

Lemma toy_hashes :
  hashes toy_hash calm "admin123$0" "manager123$1" "viewer123$2".
Proof. repeat split. Qed.

(** C1, as stated, fails: over the empty database, with nothing raising,
    the script returns [None] and not the outcome [Seeded 3 3]. *)
Lemma seed_on_empty_returns_none :
  users empty_db = [] /\
  no_faults calm /\
  (run toy_hash calm empty_db).1 = inr None /\
  (run toy_hash calm empty_db).1 <> inr (Some (Seeded 3 3)).
Proof.
  split; [reflexivity|]. split; [exact calm_no_faults|].
  assert (E : (run toy_hash calm empty_db).1 = inr None)
    by (vm_compute; reflexivity).
  split; [exact E|]. rewrite E. discriminate.
Qed.

(** C1, amended: over a database without users, when nothing raises, a
    run of the script adds exactly three user rows and exactly three
    project rows, prints "Created 3 users" and "Created 3 projects", and
    returns [None]. *)
Theorem seed_fills_empty_store hash env d h1 h2 h3 :
  users d = [] -> no_faults env -> hashes hash env h1 h2 h3 ->
  let r := run hash env d in
  users (db r.2) = users d ++ created_users d r.2 /\
  length (created_users d r.2) = 3%nat /\
  length (users (db r.2)) = 3%nat /\
  projects (db r.2) = projects d ++ created_projects d r.2 /\
  length (created_projects d r.2) = 3%nat /\
  r.1 = inr None /\
  "Created 3 users" ∈ stdout r.2 /\
  "Created 3 projects" ∈ stdout r.2.
Proof.
  intros Hu Hf Hh r.
  destruct (run_complete hash env d h1 h2 h3 Hu Hf Hh) as (Hr & Hd & Ho & _).
  fold r in Hr, Hd, Ho. unfold created_users, created_projects.
  rewrite Hd, Ho. unfold with_projects. cbn [users projects db].
  rewrite !drop_app_length, Hu.
  repeat split; try reflexivity; try assumption;
    unfold report; repeat constructor.
Qed.

Lemma seed_fills_empty_store_witness :
  length (users (db (run toy_hash calm empty_db).2)) = 3%nat /\
  length (created_projects empty_db (run toy_hash calm empty_db).2) = 3%nat.
Proof.
  pose proof (seed_fills_empty_store toy_hash calm empty_db _ _ _
                eq_refl calm_no_faults toy_hashes) as H.
  cbv zeta in H. tauto.
Defined.

(** C2, as stated, fails: over a database with one user the script
    returns [None] and not the outcome [Skipped 1]. *)
Lemma seed_on_populated_returns_none :
  0 < Z.of_nat (length (users one_user_db)) /\
  (run toy_hash calm one_user_db).1 = inr None /\
  (run toy_hash calm one_user_db).1 <> inr (Some (Skipped 1)).
Proof.
  split; [reflexivity|].
  assert (E : (run toy_hash calm one_user_db).1 = inr None)
    by (vm_compute; reflexivity).
  split; [exact E|]. rewrite E. discriminate.
Qed.

(** C2, amended: over a database whose user count is greater than zero,
    a run of the script writes nothing (the database is the same after
    the run, whatever raises); when the count query does not raise, the
    only operation of the run is that query, the script prints
    "Database already has <count> users. Skipping seed." with the count
    of the users that were there, and returns [None]. *)
Theorem seed_skips_populated_store hash env d :
  0 < Z.of_nat (length (users d)) ->
  let r := run hash env d in
  db r.2 = d /\
  (fault env 0 = None ->
   r.1 = inr None /\
   stdout r.2 =
     ["Database already has " +:+ pretty (Z.of_nat (length (users d)))
      +:+ " users. Skipping seed."] /\
   trace r.2 = [EvExecuteCount (Z.of_nat (length (users d)))]).
Proof.
  intros Hc r. apply run_skip. intros E. rewrite E in Hc. simpl in Hc. lia.
Qed.

Lemma seed_skips_populated_store_witness :
  db (run toy_hash calm one_user_db).2 = one_user_db /\
  stdout (run toy_hash calm one_user_db).2 =
    ["Database already has 1 users. Skipping seed."].
Proof.
  assert (Hc : 0 < Z.of_nat (length (users one_user_db))) by (simpl; lia).
  destruct (seed_skips_populated_store toy_hash calm one_user_db Hc)
    as (Hd & Hs).
  split; [exact Hd|]. destruct (Hs eq_refl) as (_ & Ho & _). exact Ho.
Defined.

(** C3, as stated, fails: the second of two runs over the empty
    database returns [None] and not the outcome [Skipped 3]. *)
Lemma second_seed_returns_none :
  let d1 := db (run toy_hash calm empty_db).2 in
  users empty_db = [] /\ projects empty_db = [] /\
  (run toy_hash calm d1).1 = inr None /\
  (run toy_hash calm d1).1 <> inr (Some (Skipped 3)).
Proof.
  cbv zeta. split; [reflexivity|]. split; [reflexivity|].
  assert (E : (run toy_hash calm (db (run toy_hash calm empty_db).2)).1
              = inr None) by (vm_compute; reflexivity).
  split; [exact E|]. rewrite E. discriminate.
Qed.

(** C3, amended: two runs of the script in sequence over a database
    without users and projects, nothing raising in the first and the
    count query not raising in the second, leave exactly three users and
    three projects; the second run writes nothing, prints
    "Database already has 3 users. Skipping seed." and returns [None]. *)
Theorem seed_twice hash env1 env2 d h1 h2 h3 :
  users d = [] -> projects d = [] ->
  no_faults env1 -> hashes hash env1 h1 h2 h3 -> fault env2 0 = None ->
  let r1 := run hash env1 d in
  let r2 := run hash env2 (db r1.2) in
  length (users (db r2.2)) = 3%nat /\
  length (projects (db r2.2)) = 3%nat /\
  db r2.2 = db r1.2 /\
  r2.1 = inr None /\
  stdout r2.2 = ["Database already has 3 users. Skipping seed."].
Proof.
  intros Hu Hp Hf Hh Hf2 r1 r2.
  destruct (run_complete hash env1 d h1 h2 h3 Hu Hf Hh) as (_ & Hd & _).
  fold r1 in Hd.
  assert (Hne : users (db r1.2) <> []).
  { rewrite Hd. unfold with_projects. cbn [users]. rewrite Hu. discriminate. }
  destruct (run_skip hash env2 (db r1.2) Hne) as (Hd2 & Hs).
  destruct (Hs Hf2) as (Hr2 & Ho2 & _). fold r2 in Hd2, Hr2, Ho2.
  rewrite Hd2, Ho2, Hd. unfold with_projects. cbn [users projects].
  rewrite Hu, Hp. repeat split; try reflexivity. exact Hr2.
Qed.

Lemma seed_twice_witness :
  let r1 := run toy_hash calm empty_db in
  let r2 := run toy_hash calm (db r1.2) in
  length (users (db r2.2)) = 3%nat /\ length (projects (db r2.2)) = 3%nat.
Proof.
  pose proof (seed_twice toy_hash calm calm empty_db _ _ _
                eq_refl eq_refl calm_no_faults toy_hashes eq_refl) as H.
  cbv zeta in *. tauto.
Defined.

(** The rows a run has added, whatever the database and the
    surroundings: none, or the three users, or the three users and the
    three projects. *)
Lemma created_rows hash env d :
  let w := (run hash env d).2 in
  (created_users d w = [] /\ created_projects d w = []) \/
  (exists h1 h2 h3,
     hashes hash env h1 h2 h3 /\
     users (db w) = seeded_users (user_seq d) h1 h2 h3 /\
     created_users d w = seeded_users (user_seq d) h1 h2 h3 /\
     (created_projects d w = [] \/
      created_projects d w = seeded_projects (project_seq d) (user_seq d))).
Proof.
  cbv zeta. unfold created_users, created_projects.
  destruct (users d) as [|u us] eqn:Hu.
  - destruct (run_stages hash env d Hu)
      as [(e & _ & Hd) | (h1 & h2 & h3 & Hh & [(e & _ & Hd) | (_ & Hd)])];
      rewrite Hd.
    + left. rewrite Hu. split; [reflexivity | apply drop_all].
    + right. exists h1, h2, h3. unfold with_users. cbn [users projects].
      rewrite Hu, drop_all. cbn [app drop]. auto.
    + right. exists h1, h2, h3. unfold with_projects. cbn [users projects].
      rewrite Hu, !drop_app_length. cbn [app]. auto.
  - assert (Hne : users d <> []) by (rewrite Hu; discriminate).
    destruct (run_skip hash env d Hne) as (Hd & _). rewrite Hd, Hu.
    left. split; [rewrite <- Hu|]; apply drop_all.
Qed.

Ltac members H :=
  repeat (apply elem_of_cons in H as [H | H]; [subst|]);
  try (apply elem_of_nil in H; contradiction).

(** C4: in every run, each project row the run has added has as owner
    id the id of a user row added by the same run, and that id resolves
    to this user in the users table. *)
Theorem project_owner_is_seeded_user hash env d p :
  p ∈ created_projects d (run hash env d).2 ->
  exists u i,
    u ∈ created_users d (run hash env d).2 /\
    Project.owner_id p = Some i /\
    User.id u = Some i /\
    find (has_id i) (users (db (run hash env d).2)) = Some u.
Proof.
  intros Hp.
  destruct (created_rows hash env d)
    as [(_ & Hn) | (h1 & h2 & h3 & _ & Hus & Hcu & [Hn | Hps])];
    cbv zeta in *;
    try (rewrite Hn in Hp; apply elem_of_nil in Hp; contradiction).
  rewrite Hps in Hp. rewrite Hcu, Hus. unfold seeded_projects in Hp.
  unfold seeded_users. members Hp; cbn [Project.owner_id].
  - eexists _, _. split; [apply list_elem_of_here|].
    cbn [find has_id User.id]. now rewrite Z.eqb_refl.
  - eexists _, _. split; [apply list_elem_of_further, list_elem_of_here|].
    cbn [find has_id User.id]. now rewrite succ_id_ne, Z.eqb_refl.
  - eexists _, _. split; [apply list_elem_of_here|].
    cbn [find has_id User.id]. now rewrite Z.eqb_refl.
Qed.

Lemma project_owner_is_seeded_user_witness :
  exists u i,
    u ∈ created_users empty_db (run toy_hash calm empty_db).2 /\
    Project.owner_id website_redesign = Some i /\
    User.id u = Some i /\
    find (has_id i) (users (db (run toy_hash calm empty_db).2)) = Some u.
Proof.
  apply (project_owner_is_seeded_user toy_hash calm empty_db website_redesign).
  vm_compute. apply list_elem_of_here.
Defined.

Lemma append_grows (p t : string) : t <> "" -> p +:+ t <> p.
Proof.
  intros Ht. induction p as [|a p IH]; simpl; [exact Ht|].
  intros E. injection E as E. exact (IH E).
Qed.

Lemma toy_hash_not_plain s p h : toy_hash s p = inr h -> h <> p.
Proof.
  unfold toy_hash. intros E. injection E as <-. now apply append_grows.
Qed.

Lemma toy_verify_accepts s p h :
  toy_hash s p = inr h -> toy_verify p h = true.
Proof.
  unfold toy_hash, toy_verify. intros E. injection E as <-.
  induction p as [|a p IH]; simpl.
  - destruct (ascii_dec "$" "$"); [now destruct s | congruence].
  - destruct (ascii_dec a a); [exact IH | congruence].
Qed.

Section Hasher.

Variable hash : string -> string -> exn + string.

(** Modelled from the spec: the verify operation of the CredentialHasher,
    paired with [get_password_hash]; app.core.security is not part of
    the script.  The two hypotheses are what the data model says of the
    hasher: a stored hash is never the plaintext secret, and verifying
    the plaintext a hash was made from succeeds. *)
Variable verify_password : string -> string -> bool.

Hypothesis hash_not_plain : forall s p h, hash s p = inr h -> h <> p.

Hypothesis verify_accepts :
  forall s p h, hash s p = inr h -> verify_password p h = true.

(** C5: in every run, each user row the run has added belongs to one of
    the three login pairs, and its stored hash is what the hasher gave
    for the plaintext secret of that pair (with the salt of one call of
    the run); the stored hash is not the plaintext, and verifying the
    plaintext against it succeeds. *)
Theorem stored_hash_is_hasher_output env d u :
  u ∈ created_users d (run hash env d).2 ->
  exists plain n,
    (User.email u, plain) ∈ credentials /\
    hash (salt env n) plain = inr (User.hashed_password u) /\
    User.hashed_password u <> plain /\
    verify_password plain (User.hashed_password u) = true.
Proof.
  intros Hu.
  destruct (created_rows hash env d)
    as [(Hn & _) | (h1 & h2 & h3 & (H1 & H2 & H3) & _ & Hcu & _)];
    cbv zeta in *.
  { rewrite Hn in Hu. apply elem_of_nil in Hu. contradiction. }
  rewrite Hcu in Hu. unfold seeded_users in Hu. unfold credentials.
  members Hu; cbn [User.email User.hashed_password].
  - exists "admin123", 0%nat. split; [apply list_elem_of_here|]. eauto.
  - exists "manager123", 1%nat.
    split; [apply list_elem_of_further, list_elem_of_here|]. eauto.
  - exists "viewer123", 2%nat.
    split; [do 2 apply list_elem_of_further; apply list_elem_of_here|].
    eauto.
Qed.

End Hasher.

Lemma stored_hash_is_hasher_output_witness :
  exists plain n,
    (User.email admin_user, plain) ∈ credentials /\
    toy_hash (salt calm n) plain = inr (User.hashed_password admin_user) /\
    User.hashed_password admin_user <> plain /\
    toy_verify plain (User.hashed_password admin_user) = true.
Proof.
  apply (stored_hash_is_hasher_output toy_hash toy_verify toy_hash_not_plain
           toy_verify_accepts calm empty_db admin_user).
  vm_compute. apply list_elem_of_here.
Defined.

Ltac filter_rows :=
  rewrite ?filter_cons, ?filter_nil;
  cbn [User.email User.id Project.owner_id];
  repeat (case_decide;
          try congruence;
          try (exfalso;
               match goal with
               | H : Some _ = Some _ |- _ => injection H; lia
               end)).

(** C6: after one run over a database without users and projects,
    nothing raising, the users table has three rows; the one account
    with email admin@example.com has role admin and owns the two
    projects "Website Redesign" and "API Integration"; the one account
    with email manager@example.com has role manager and owns the one
    project "Mobile App", with status draft and budget 10000000. *)
Theorem end_to_end hash env d h1 h2 h3 :
  users d = [] -> projects d = [] ->
  no_faults env -> hashes hash env h1 h2 h3 ->
  let d' := db (run hash env d).2 in
  length (users d') = 3%nat /\
  exists a m,
    accounts_with_email "admin@example.com" d' = [a] /\
    User.role a = UserRole.admin /\
    map Project.name (owned_by a d') =
      ["Website Redesign"; "API Integration"] /\
    accounts_with_email "manager@example.com" d' = [m] /\
    User.role m = UserRole.manager /\
    map (fun p => (Project.name p, Project.status p, Project.budget p))
        (owned_by m d') =
      [("Mobile App", ProjectStatus.draft, 10000000)].
Proof.
  intros Hu Hp Hf Hh d'.
  destruct (run_complete hash env d h1 h2 h3 Hu Hf Hh) as (_ & Hd & _).
  subst d'. rewrite Hd. unfold with_projects. rewrite Hu, Hp.
  unfold accounts_with_email, owned_by, seeded_users, seeded_projects.
  cbn [users projects app]. split; [reflexivity|].
  eexists (User.mk _ _ _ _ _ _), (User.mk _ _ _ _ _ _).
  split; [filter_rows; reflexivity|]. cbn [User.role User.id].
  split; [reflexivity|]. split; [filter_rows; reflexivity|].
  split; [filter_rows; reflexivity|]. cbn [User.role User.id].
  split; [reflexivity|]. filter_rows. reflexivity.
Qed.

Lemma end_to_end_witness :
  length (users (db (run toy_hash calm empty_db).2)) = 3%nat.
Proof.
  exact (proj1 (end_to_end toy_hash calm empty_db _ _ _ eq_refl eq_refl
                  calm_no_faults toy_hashes)).
Defined.

(** The rows added by a run in which nothing raises, over a database
    without users. *)
Lemma created_complete hash env d h1 h2 h3 :
  users d = [] -> no_faults env -> hashes hash env h1 h2 h3 ->
  created_users d (run hash env d).2 = seeded_users (user_seq d) h1 h2 h3 /\
  created_projects d (run hash env d).2 =
    seeded_projects (project_seq d) (user_seq d).
Proof.
  intros Hu Hf Hh.
  destruct (run_complete hash env d h1 h2 h3 Hu Hf Hh) as (_ & Hd & _).
  unfold created_users, created_projects. rewrite Hd. unfold with_projects.
  cbn [users projects]. now rewrite !drop_app_length.
Qed.

(** C7: the budget of a project row is a Python int, here in [Z], and
    in every run each project row the run has added carries the amount
    in cents that the script gives for its name: 5000000 for "Website
    Redesign", 10000000 for "Mobile App" and 2500000 for "API
    Integration"; when nothing raises over a database without users,
    these are the three rows added, in this order. *)
Theorem budgets_are_exact hash env d :
  let ps := created_projects d (run hash env d).2 in
  (forall p, p ∈ ps ->
     (Project.name p, Project.budget p) ∈
       [("Website Redesign", 5000000); ("Mobile App", 10000000);
        ("API Integration", 2500000)]) /\
  (forall h1 h2 h3,
     users d = [] -> no_faults env -> hashes hash env h1 h2 h3 ->
     map (fun p => (Project.name p, Project.budget p)) ps =
       [("Website Redesign", 5000000); ("Mobile App", 10000000);
        ("API Integration", 2500000)]).
Proof.
  cbv zeta. split.
  - intros p Hp.
    destruct (created_rows hash env d)
      as [(_ & Hn) | (h1 & h2 & h3 & _ & _ & _ & [Hn | Hps])];
      cbv zeta in *;
      try (rewrite Hn in Hp; apply elem_of_nil in Hp; contradiction).
    rewrite Hps in Hp. unfold seeded_projects in Hp.
    members Hp; cbn [Project.name Project.budget]; repeat constructor.
  - intros h1 h2 h3 Hu Hf Hh.
    destruct (created_complete hash env d h1 h2 h3 Hu Hf Hh) as (_ & Hps).
    now rewrite Hps.
Qed.

Lemma budgets_are_exact_witness :
  (Project.name website_redesign, Project.budget website_redesign) ∈
    [("Website Redesign", 5000000); ("Mobile App", 10000000);
     ("API Integration", 2500000)] /\
  map (fun p => (Project.name p, Project.budget p))
      (created_projects empty_db (run toy_hash calm empty_db).2) =
    [("Website Redesign", 5000000); ("Mobile App", 10000000);
     ("API Integration", 2500000)].
Proof.
  destruct (budgets_are_exact toy_hash calm empty_db) as (Hall & Hrun).
  split.
  - apply Hall. vm_compute. apply list_elem_of_here.
  - exact (Hrun _ _ _ eq_refl calm_no_faults toy_hashes).
Defined.

(** C10: in every run, each user row the run has added is active and
    the emails of the added rows are pairwise distinct; when nothing
    raises over a database without users, they are admin@example.com,
    manager@example.com and viewer@example.com. *)
Theorem seeded_users_active_distinct hash env d :
  let us := created_users d (run hash env d).2 in
  (forall u, u ∈ us -> User.is_active u = true) /\
  NoDup (map User.email us) /\
  (forall h1 h2 h3,
     users d = [] -> no_faults env -> hashes hash env h1 h2 h3 ->
     map User.email us =
       ["admin@example.com"; "manager@example.com"; "viewer@example.com"]).
Proof.
  cbv zeta. split; [|split].
  - intros u Hu.
    destruct (created_rows hash env d)
      as [(Hn & _) | (h1 & h2 & h3 & _ & _ & Hcu & _)]; cbv zeta in *.
    { rewrite Hn in Hu. apply elem_of_nil in Hu. contradiction. }
    rewrite Hcu in Hu. unfold seeded_users in Hu. now members Hu.
  - destruct (created_rows hash env d)
      as [(Hn & _) | (h1 & h2 & h3 & _ & _ & Hcu & _)]; cbv zeta in *.
    { rewrite Hn. apply NoDup_nil_2. }
    rewrite Hcu. unfold seeded_users. cbn [map User.email].
    apply (bool_decide_unpack _). vm_compute. exact I.
  - intros h1 h2 h3 Hu Hf Hh.
    destruct (created_complete hash env d h1 h2 h3 Hu Hf Hh) as (Hcu & _).
    now rewrite Hcu.
Qed.

Lemma seeded_users_active_distinct_witness :
  User.is_active admin_user = true /\
  map User.email (created_users empty_db (run toy_hash calm empty_db).2) =
    ["admin@example.com"; "manager@example.com"; "viewer@example.com"].
Proof.
  destruct (seeded_users_active_distinct toy_hash calm empty_db)
    as (Hact & _ & Hrun).
  split.
  - apply Hact. vm_compute. apply list_elem_of_here.
  - exact (Hrun _ _ _ eq_refl calm_no_faults toy_hashes).
Defined.

(** The script raises nothing by itself and catches nothing: no event of
    the script is an exception. *)
Lemma script_no_raise d op e : EvRaise op e ∉ script_trace d.
Proof.
  unfold script_trace. intros H.
  repeat (apply elem_of_cons in H as [H | H]; [discriminate|]).
  now apply elem_of_nil in H.
Qed.

Lemma take_script_no_raise d n op e : EvRaise op e ∉ take n (script_trace d).
Proof.
  intros H. apply (script_no_raise d op e). eapply subseteq_take, H.
Qed.

(** A run that raises leaves what it had committed: either no commit
    went through and the database is as it was, or the commit of the
    three users went through and they are in the database. *)
Lemma run_failed hash env d e :
  (run hash env d).1 = inl e ->
  ((forall rs, EvCommit rs ∉ trace (run hash env d).2) /\
   db (run hash env d).2 = d) \/
  (EvCommit [0; 1; 2]%nat ∈ trace (run hash env d).2 /\
   exists h1 h2 h3,
     hashes hash env h1 h2 h3 /\
     db (run hash env d).2 = with_users d h1 h2 h3).
Proof.
  destruct d as [[|u us] ps i j]; explore; intros Hr;
    try discriminate;
    try (left; split; [|reflexivity]; intros rs Hrs;
         repeat (apply elem_of_cons in Hrs as [Hrs | Hrs]; [discriminate|]);
         now apply elem_of_nil in Hrs);
    right; (split; [repeat constructor|]);
    do 3 eexists; (split; [repeat split; eassumption|]);
    unfold with_users, seeded_users; tidy; reflexivity.
Qed.

(** C9: when an operation of a run raises (the count query, a commit,
    a refresh or the hasher), the run ends there: the exception is the
    last event, no operation is tried again, and the caller of the
    script receives the same exception instead of a return value.
    Nothing is undone either: if no commit went through the database is
    as it was, and if the commit of the users went through the three
    users stay in the database. *)
Theorem failure_propagates hash env d op e :
  EvRaise op e ∈ trace (run hash env d).2 ->
  (run hash env d).1 = inl e /\
  (exists pre,
     trace (run hash env d).2 = pre ++ [EvRaise op e] /\
     forall op' e', EvRaise op' e' ∉ pre) /\
  (((forall rs, EvCommit rs ∉ trace (run hash env d).2) /\
    db (run hash env d).2 = d) \/
   (EvCommit [0; 1; 2]%nat ∈ trace (run hash env d).2 /\
    exists h1 h2 h3,
      hashes hash env h1 h2 h3 /\
      db (run hash env d).2 = with_users d h1 h2 h3)).
Proof.
  intros H.
  assert (Hr : (run hash env d).1 = inl e /\
               exists pre,
                 trace (run hash env d).2 = pre ++ [EvRaise op e] /\
                 forall op' e', EvRaise op' e' ∉ pre).
  { destruct (run_trace hash env d) as [(_ & Ht) | (op' & e' & Hr & Ht)];
      cbv zeta in *; rewrite Ht in H.
    - now apply take_script_no_raise in H.
    - apply elem_of_app in H as [H | H];
        [now apply take_script_no_raise in H|].
      apply list_elem_of_singleton in H. injection H as -> ->.
      split; [exact Hr|]. eexists. split; [exact Ht|].
      intros ? ?. apply take_script_no_raise. }
  destruct Hr as (Hr & Hpre). split; [exact Hr|]. split; [exact Hpre|].
  exact (run_failed hash env d e Hr).
Qed.

Lemma failure_propagates_witness :
  (run toy_hash (failing_at 4) empty_db).1 = inl connection_lost.
Proof.
  apply (failure_propagates toy_hash (failing_at 4) empty_db OpCommit
           connection_lost).
  vm_compute. repeat constructor.
Defined.

(** Failing runs, one for each operation that can raise. *)
Example count_query_raises :
  run toy_hash (failing_at 0) empty_db =
  (inl connection_lost,
   mkWorld empty_db [] [] [] [EvRaise OpExecute connection_lost] 1%nat 0%nat).
Proof. vm_compute. reflexivity. Qed.

Example hasher_raises :
  (run strict_hash calm empty_db).1 = inl (HashError "password rejected") /\
  db (run strict_hash calm empty_db).2 = empty_db /\
  last (trace (run strict_hash calm empty_db).2) =
    Some (EvRaise OpHash (HashError "password rejected")).
Proof. vm_compute. repeat split. Qed.

Example first_commit_raises :
  (run toy_hash (failing_at 1) empty_db).1 = inl connection_lost /\
  db (run toy_hash (failing_at 1) empty_db).2 = empty_db /\
  last (trace (run toy_hash (failing_at 1) empty_db).2) =
    Some (EvRaise OpCommit connection_lost).
Proof. vm_compute. repeat split. Qed.

(** The accepted window of the script: the second commit raises, the
    users stay without projects, and the next run is skipped. *)
Example second_commit_raises :
  let r := run toy_hash (failing_at 4) empty_db in
  r.1 = inl connection_lost /\
  length (users (db r.2)) = 3%nat /\
  projects (db r.2) = [] /\
  (run toy_hash calm (db r.2)).1 = inr None /\
  db (run toy_hash calm (db r.2)).2 = db r.2.
Proof. vm_compute. repeat split. Qed.

(** In a list of events that starts as the script does and ends, at
    most, with an exception, no event that needs the accounts comes
    before the commit of the three users. *)
Lemma script_order d n tail i ev :
  tail = [] \/ (exists op e, tail = [EvRaise op e]) ->
  (take n (script_trace d) ++ tail) !! i = Some ev ->
  needs_accounts (take n (script_trace d) ++ tail) ev ->
  exists c, (c < i)%nat /\
            accounts_committed (take n (script_trace d) ++ tail) c.
Proof.
  intros Htail Hi Hev.
  set (tr := take n (script_trace d) ++ tail) in *.
  assert (Hproj : forall r, EvNewProject r ∈ tr -> (3 <= r)%nat).
  { intros r Hr. subst tr. apply elem_of_app in Hr as [Hr | Hr].
    - apply subseteq_take in Hr. unfold script_trace in Hr.
      repeat (apply elem_of_cons in Hr as [Hr | Hr];
              [try discriminate; injection Hr as ->; lia|]).
      now apply elem_of_nil in Hr.
    - destruct Htail as [-> | (op & e & ->)].
      + now apply elem_of_nil in Hr.
      + apply list_elem_of_singleton in Hr. discriminate. }
  assert (Hlow : forall rs, (exists r, r ∈ rs /\ EvNewProject r ∈ tr) ->
                            rs <> [0; 1; 2]%nat).
  { intros rs (r & Hr & Hp) ->. apply Hproj in Hp.
    repeat (apply elem_of_cons in Hr as [Hr | Hr]; [lia|]).
    now apply elem_of_nil in Hr. }
  assert (Hs : script_trace d !! i = Some ev /\ (i < n)%nat).
  { subst tr. apply lookup_app_Some in Hi as [Hi | (_ & Hi)].
    - now apply lookup_take_Some in Hi.
    - destruct Htail as [-> | (op & e & ->)]; [easy|].
      apply list_lookup_singleton_Some in Hi as (_ & <-). contradiction. }
  destruct Hs as (Hs & Hn).
  assert (Hi9 : (9 <= i)%nat).
  { unfold script_trace in Hs.
    do 9 (destruct i as [|i];
          [cbn in Hs; injection Hs as <-; cbn in Hev;
           try contradiction; exfalso; now apply (Hlow _ Hev)|]).
    lia. }
  assert (Hlen : (i < length (script_trace d))%nat)
    by (eapply lookup_lt_Some, Hs).
  assert (Hpre : forall j, (j < i)%nat -> tr !! j = script_trace d !! j).
  { intros j Hj. subst tr.
    rewrite lookup_app_l by (rewrite length_take; lia).
    apply lookup_take_lt. lia. }
  exists 8%nat. split; [lia|]. exists 7%nat, [0; 1; 2]%nat.
  split; [lia|]. rewrite !Hpre by lia.
  split; [reflexivity|]. split; [reflexivity|]. split; [reflexivity|].
  intros r Hr. subst tr.
  rewrite take_app_le by (rewrite length_take; lia).
  rewrite take_take, Nat.min_l by lia.
  unfold script_trace. cbn [take].
  repeat (apply elem_of_cons in Hr as [-> | Hr]; [repeat constructor|]).
  now apply elem_of_nil in Hr.
Qed.

(** C8: in every run, whatever raises, each event that refreshes a user
    or reads its id, builds a project, or adds or commits a project comes
    after a commit that went through and persisted the three user
    objects, themselves built and added before that commit. *)
Theorem accounts_committed_first hash env d i ev :
  trace (run hash env d).2 !! i = Some ev ->
  needs_accounts (trace (run hash env d).2) ev ->
  exists c, (c < i)%nat /\ accounts_committed (trace (run hash env d).2) c.
Proof.
  destruct (run_trace hash env d) as [(_ & Ht) | (op & e & _ & Ht)];
    cbv zeta in Ht; rewrite Ht.
  - rewrite <- (app_nil_r (take _ _)). apply script_order. now left.
  - apply script_order. right. now exists op, e.
Qed.

Lemma accounts_committed_first_witness :
  exists c, (c < 12)%nat /\
            accounts_committed (trace (run toy_hash calm empty_db).2) c.
Proof.
  apply (accounts_committed_first toy_hash calm empty_db 12%nat
           (EvNewProject 3%nat)).
  - vm_compute. reflexivity.
  - exact I.
Defined.

(** ** More on the runs of the script *)

(** Every run only appends: whatever the database and whatever raises,
    the rows that were there are still there, unchanged and in the same
    order, followed by the rows the run has added. *)
Theorem rows_are_kept hash env d :
  users (db (run hash env d).2) = users d ++ created_users d (run hash env d).2 /\
  projects (db (run hash env d).2) =
    projects d ++ created_projects d (run hash env d).2.
Proof.
  unfold created_users, created_projects.
  destruct (users d) as [|u us] eqn:Hu.
  - destruct (run_stages hash env d Hu)
      as [(e & _ & Hd) | (h1 & h2 & h3 & _ & [(e & _ & Hd) | (_ & Hd)])];
      rewrite Hd; unfold with_users, with_projects; cbn [users projects];
      rewrite ?Hu, ?drop_app_length, ?drop_all, ?app_nil_r; cbn [app length drop];
      auto.
  - assert (Hne : users d <> []) by (rewrite Hu; discriminate).
    destruct (run_skip hash env d Hne) as (Hd & _). rewrite Hd, Hu.
    rewrite <- Hu, !drop_all, !app_nil_r. auto.
Qed.

(** A run that returns leaves a database on which every later run
    writes nothing, whatever the database of the first run was; the
    later run returns [None] when its count query does not raise. *)
Theorem rerun_after_return hash env1 env2 d o :
  (run hash env1 d).1 = inr o ->
  let d1 := db (run hash env1 d).2 in
  db (run hash env2 d1).2 = d1 /\
  (fault env2 0 = None -> (run hash env2 d1).1 = inr None).
Proof.
  intros Hr d1.
  assert (Hne : users d1 <> []).
  { subst d1. destruct (users d) as [|u us] eqn:Hu.
    - destruct (run_stages hash env1 d Hu)
        as [(e & He & _) | (h1 & h2 & h3 & _ & [(e & He & _) | (_ & Hd)])];
        try (rewrite He in Hr; discriminate).
      rewrite Hd. unfold with_projects. cbn [users]. rewrite Hu. discriminate.
    - assert (Hn : users d <> []) by (rewrite Hu; discriminate).
      destruct (run_skip hash env1 d Hn) as (Hd & _). now rewrite Hd. }
  destruct (run_skip hash env2 d1 Hne) as (Hd & Hs).
  split; [exact Hd|]. intros Hf. now destruct (Hs Hf).
Qed.

Lemma rerun_after_return_witness :
  db (run toy_hash calm (db (run toy_hash calm empty_db).2)).2 =
  db (run toy_hash calm empty_db).2.
Proof.
  apply (rerun_after_return toy_hash calm calm empty_db None).
  vm_compute. reflexivity.
Defined.



(** In every run, each project row the run has added carries the
    status and the priority that the script gives for its name. *)
Theorem statuses_and_priorities hash env d p :
  p ∈ created_projects d (run hash env d).2 ->
  (Project.name p, Project.status p, Project.priority p) ∈
    [("Website Redesign", ProjectStatus.active, ProjectPriority.high);
     ("Mobile App", ProjectStatus.draft, ProjectPriority.medium);
     ("API Integration", ProjectStatus.active, ProjectPriority.critical)].
Proof.
  intros Hp.
  destruct (created_rows hash env d)
    as [(_ & Hn) | (h1 & h2 & h3 & _ & _ & _ & [Hn | Hps])];
    cbv zeta in *;
    try (rewrite Hn in Hp; apply elem_of_nil in Hp; contradiction).
  rewrite Hps in Hp. unfold seeded_projects in Hp.
  members Hp; cbn [Project.name Project.status Project.priority];
    repeat constructor.
Qed.

Lemma statuses_and_priorities_witness :
  (Project.name website_redesign, Project.status website_redesign,
   Project.priority website_redesign) ∈
    [("Website Redesign", ProjectStatus.active, ProjectPriority.high);
     ("Mobile App", ProjectStatus.draft, ProjectPriority.medium);
     ("API Integration", ProjectStatus.active, ProjectPriority.critical)].
Proof.
  apply (statuses_and_priorities toy_hash calm empty_db website_redesign).
  vm_compute. apply list_elem_of_here.
Defined.

(** After a run over a database without users and projects in which
    nothing raises, the one account with email viewer@example.com has
    role viewer and owns no project, and the owner id of each project
    is the id of exactly one user row. *)
Theorem viewer_owns_nothing hash env d h1 h2 h3 :
  users d = [] -> projects d = [] ->
  no_faults env -> hashes hash env h1 h2 h3 ->
  let d' := db (run hash env d).2 in
  (exists v,
     accounts_with_email "viewer@example.com" d' = [v] /\
     User.role v = UserRole.viewer /\
     owned_by v d' = []) /\
  forall p, p ∈ projects d' ->
    length (filter (fun u => User.id u = Project.owner_id p) (users d'))
      = 1%nat.
Proof.
  intros Hu Hp Hf Hh d'.
  destruct (run_complete hash env d h1 h2 h3 Hu Hf Hh) as (_ & Hd & _).
  subst d'. rewrite Hd. unfold with_projects. rewrite Hu, Hp.
  unfold accounts_with_email, owned_by, seeded_users, seeded_projects.
  cbn [users projects app]. split.
  - eexists (User.mk _ _ _ _ _ _).
    split; [filter_rows; reflexivity|]. cbn [User.role User.id].
    split; [reflexivity|]. filter_rows; reflexivity.
  - intros p Hin. members Hin; filter_rows; reflexivity.
Qed.

Lemma viewer_owns_nothing_witness :
  exists v,
    accounts_with_email "viewer@example.com"
      (db (run toy_hash calm empty_db).2) = [v] /\
    User.role v = UserRole.viewer /\
    owned_by v (db (run toy_hash calm empty_db).2) = [].
Proof.
  exact (proj1 (viewer_owns_nothing toy_hash calm empty_db _ _ _ eq_refl
                  eq_refl calm_no_faults toy_hashes)).
Defined.

(** When nothing raises over a database without users, the script
    prints, for each user row it has added, the login line of its email
    with a plaintext secret, and the stored hash of the row is what the
    hasher gave for that secret. *)
Theorem printed_credentials_match hash env d h1 h2 h3 u :
  users d = [] -> no_faults env -> hashes hash env h1 h2 h3 ->
  u ∈ created_users d (run hash env d).2 ->
  exists secret n,
    login_line (User.email u) secret ∈ stdout (run hash env d).2 /\
    hash (salt env n) secret = inr (User.hashed_password u).
Proof.
  intros Hu Hf Hh Hin.
  destruct (run_complete hash env d h1 h2 h3 Hu Hf Hh) as (_ & _ & Ho & _).
  destruct (created_complete hash env d h1 h2 h3 Hu Hf Hh) as (Hcu & _).
  destruct Hh as (H1 & H2 & H3).
  rewrite Ho. rewrite Hcu in Hin. unfold seeded_users in Hin.
  members Hin; cbn [User.email User.hashed_password].
  - exists "admin123", 0%nat. split; [|exact H1]. vm_compute. repeat constructor.
  - exists "manager123", 1%nat. split; [|exact H2]. vm_compute. repeat constructor.
  - exists "viewer123", 2%nat. split; [|exact H3]. vm_compute. repeat constructor.
Qed.

Lemma printed_credentials_match_witness :
  exists secret n,
    login_line (User.email admin_user) secret ∈
      stdout (run toy_hash calm empty_db).2 /\
    toy_hash (salt calm n) secret = inr (User.hashed_password admin_user).
Proof.
  apply (printed_credentials_match toy_hash calm empty_db _ _ _ admin_user
           eq_refl calm_no_faults toy_hashes).
  vm_compute. apply list_elem_of_here.
Defined.

Ltac absurd_mem H :=
  unfold nl in H; cbn [String.append] in H;
  repeat (apply elem_of_cons in H as [H | H]; [discriminate|]);
  now apply elem_of_nil in H.

Ltac created_lengths :=
  unfold created_users, created_projects, no_pending;
  cbn [users projects db length drop];
  rewrite <- ?app_assoc, ?drop_app_length, ?drop_all;
  cbn [app length].

(** What the script prints about its writes is true, in every run:
    "Created 3 users" is printed exactly when the run has added three
    user rows, "Created 3 projects" exactly when it has added three
    project rows, and the final success line exactly when it has added
    both and returns. *)
Theorem printed_counts_are_true hash env d :
  ("Created 3 users" ∈ stdout (run hash env d).2 <->
   length (created_users d (run hash env d).2) = 3%nat) /\
  ("Created 3 projects" ∈ stdout (run hash env d).2 <->
   length (created_projects d (run hash env d).2) = 3%nat) /\
  ((nl +:+ "✅ Database seeded successfully!") ∈ stdout (run hash env d).2 <->
   (run hash env d).1 = inr None /\
   length (created_users d (run hash env d).2) = 3%nat /\
   length (created_projects d (run hash env d).2) = 3%nat).
Proof.
  destruct d as [[|u us] ps i j]; explore; created_lengths;
    (split; [|split]); (split; intros Hin);
    first [ discriminate
          | reflexivity
          | solve [repeat constructor]
          | exfalso; absurd_mem Hin
          | destruct Hin as (? & ? & ?); discriminate ].
Qed.

(** The work of a run, whatever raises: at most five I/O operations and
    three calls of the hasher; over a database with users, one I/O
    operation (the count query), no call of the hasher and no object
    built; a run that returns over a database without users has done
    the five operations and the three calls. *)
Theorem work_of_a_run hash env d :
  let w := (run hash env d).2 in
  (io_steps w <= 5)%nat /\ (hash_calls w <= 3)%nat /\
  (users d <> [] ->
   io_steps w = 1%nat /\ hash_calls w = 0%nat /\ heap w = []) /\
  (users d = [] -> (run hash env d).1 = inr None ->
   io_steps w = 5%nat /\ hash_calls w = 3%nat).
Proof.
  cbv zeta. destruct d as [[|u us] ps i j]; explore;
    (split; [lia|]); (split; [lia|]);
    (split; [intros Hne; first [ now contradiction Hne | easy ]|]);
    intros Hem Hret; first [ discriminate | easy ].
Qed.

Lemma work_of_a_run_witness :
  io_steps (run toy_hash calm one_user_db).2 = 1%nat /\
  hash_calls (run toy_hash calm one_user_db).2 = 0%nat /\
  heap (run toy_hash calm one_user_db).2 = [].
Proof.
  apply (work_of_a_run toy_hash calm one_user_db). discriminate.
Defined.

(** Over a database without users, the run gets through both commits
    and adds the three projects exactly when none of its five I/O
    operations raises and the hasher accepts the three secrets: the
    refreshes always find their rows, and nothing else stands between
    the script and its second commit. *)
Theorem seed_completes_iff hash env d :
  users d = [] ->
  (length (created_projects d (run hash env d).2) = 3%nat <->
   (forall n, (n < 5)%nat -> fault env n = None) /\
   exists h1 h2 h3, hashes hash env h1 h2 h3).
Proof.
  intros Hu. destruct d as [us ps i j]. simpl in Hu. subst us.
  unfold hashes. explore; created_lengths; split;
    try discriminate;
    try (intros (Hnf & h1 & h2 & h3 & Hh1 & Hh2 & Hh3);
         first [ congruence
               | rewrite Hnf in * by lia; discriminate ]).
  intros _. split; [|eauto 7].
  intros n Hn. do 5 (destruct n as [|n]; [assumption|]). lia.
Qed.

Lemma seed_completes_iff_witness :
  length (created_projects empty_db (run toy_hash calm empty_db).2) = 3%nat <->
  (forall n, (n < 5)%nat -> fault calm n = None) /\
  exists h1 h2 h3, hashes toy_hash calm h1 h2 h3.
Proof.
  apply (seed_completes_iff toy_hash calm empty_db). reflexivity.
Defined.

Lemma printed_counts_are_true_witness :
  "Created 3 users" ∈ stdout (run toy_hash calm empty_db).2.
Proof.
  apply (proj2 (proj1 (printed_counts_are_true toy_hash calm empty_db))).
  vm_compute. reflexivity.
Defined.
